(** * A shallow embedding of [app.py]

    The program is a FastAPI application with eight routes.  Every handler
    is embedded as a computation in a small state-and-exception monad: the
    state is the store of [ItemService] objects that the dependency
    provider [get_item_service] allocates, and the only exception the
    source raises is [HTTPException].

    Python values are embedded as follows: [int] is [Z], [str] is
    [string], [float] is a binary64 [float], [None] is a constructor of
    its own, a [dict] literal is an association list in the order the
    source writes its keys, and the attribute [ItemService.items] is a
    finite map from strings to strings.

    A [str] is embedded as the string of the bytes of its UTF-8 encoding.
    A [str] that holds a lone surrogate has no UTF-8 encoding and is not
    embedded: every statement below is about text that is well-formed
    Unicode.  A [float] may be an infinity or a NaN, and the rendering of
    an answer fails on those. *)

From Stdlib Require Import ZArith String Ascii DecimalString DecimalZ PrimFloat.
From stdpp Require Import base option list strings gmap.

Local Open Scope Z_scope.
Local Open Scope string_scope.
Local Open Scope list_scope.
Set Warnings "-register-all".
(* A decimal literal such as 19.99 denotes the nearest binary64 value, as
   it does in Python. *)
Set Warnings "-inexact-float".

(** ** Data model *)

(** [class Item(BaseModel)]: two required fields and two optional ones
    whose default is [None]. *)
Record Item := mkItem {
  name : string;
  description : option string;
  price : float;
  tax : option float
}.

(** [class ItemResponse(BaseModel)]: a second class with the same four
    fields, used as the response model of [GET /item/{item_id}]. *)
Record ItemResponse := mkItemResponse {
  resp_name : string;
  resp_description : option string;
  resp_price : float;
  resp_tax : option float
}.

(** The Python values the handlers receive and return. *)
Inductive pyval :=
| VNone
| VStr (s : string)
| VInt (z : Z)
| VFloat (x : float)
| VDict (kvs : list (string * pyval))
| VItem (m : Item).

(** [class ItemService]: its only attribute is the dict [items]. *)
Record ItemService := mkItemService {
  items : gmap string string
}.

(** The exceptions a request can end in.  The source raises
    [HTTPException] only; the two validation errors are the framework's,
    raised before the handler runs (request) or after it returned
    (response).  [RenderError] is the error that writing the answer as
    JSON raises, a [ValueError] on a float that JSON cannot hold; no
    handler catches it and the client is answered with status 500.  [DanglingReference]
    has no Python counterpart: a Python reference is always live, and the
    model needs an outcome for reading an address that was never
    allocated. *)
Inductive exn :=
| HTTPException (status_code : Z) (detail : string)
| RequestValidationError
| ResponseValidationError
| RenderError
| DanglingReference.

Inductive outcome (A : Type) :=
| Return (a : A)
| Raise (e : exn).
Arguments Return {A} a.
Arguments Raise {A} e.

(** ** The monad of handlers *)

(** The object store: the [ItemService] instances constructed so far, in
    allocation order; a reference is an index into it. *)
Abbreviation ref := nat.
Abbreviation heap := (list ItemService).

Definition M (A : Type) : Type := heap -> outcome A * heap.

Definition ret {A} (a : A) : M A := fun h => (Return a, h).

Definition raise {A} (e : exn) : M A := fun h => (Raise e, h).

Definition bind {A B} (m : M A) (k : A -> M B) : M B :=
  fun h =>
    match m h with
    | (Return a, h') => k a h'
    | (Raise e, h') => (Raise e, h')
    end.

Declare Scope py_scope.
Delimit Scope py_scope with py.
Notation "x <- m ;; k" := (bind m (fun x => k))
  (at level 100, m at next level, right associativity) : py_scope.
Local Open Scope py_scope.

(** Constructing an object stores it at a fresh address. *)
Definition alloc (o : ItemService) : M ref :=
  fun h => (Return (length h), h ++ [o]).

Definition deref (r : ref) : M ItemService :=
  fun h =>
    match h !! r with
    | Some o => (Return o, h)
    | None => (Raise DanglingReference, h)
    end.

(** ** Python built-ins used by the source *)

(** [str(z)] for an [int]: the decimal digits, with a leading minus sign
    for a negative number. *)
Definition str_int (z : Z) : string := NilZero.string_of_int (Z.to_int z).

(** [int(s)] on the strings [str_int] produces; used to state that
    [str_int] is the decimal rendering. *)
Definition int_of_str (s : string) : option Z :=
  Z.of_int <$> NilZero.int_of_string s.

(** [str(q)] for an [Optional[str]], as an f-string placeholder applies
    it: [None] is rendered as the word None. *)
Definition str_opt (q : option string) : string :=
  match q with
  | Some s => s
  | None => "None"
  end.

(** [d.get(k, default)] on a dict of strings. *)
Definition dict_get_default (d : gmap string string) (k default : string) : string :=
  match d !! k with
  | Some v => v
  | None => default
  end.

(** ** The source, in order *)

(** [get_query_param(q)]: [return q]. *)
Definition get_query_param (q : option string) : M (option string) :=
  ret q.

(** [hello(q)]: [return {"Hello": f"How are you? Query Parameter: {q}"}]. *)
Definition hello (q : option string) : M pyval :=
  ret (VDict [("Hello", VStr ("How are you? Query Parameter: " +:+ str_opt q))]).

(** [read_item(item_id)]: [return {"item_id": item_id}]. *)
Definition read_item (item_id : Z) : M pyval :=
  ret (VDict [("item_id", VInt item_id)]).

(** [create_item(item)]: [return {"item": item}]. *)
Definition create_item (item : Item) : M pyval :=
  ret (VDict [("item", VItem item)]).

(** [update_item(item_id, item)]: [return {"item_id": item_id, "item": item}]. *)
Definition update_item (item_id : Z) (item : Item) : M pyval :=
  ret (VDict [("item_id", VInt item_id); ("item", VItem item)]).

(** [delete_item(item_id)]:
    [return {"message": f"Item with ID {item_id} deleted"}]. *)
Definition delete_item (item_id : Z) : M pyval :=
  ret (VDict [("message", VStr ("Item with ID " +:+ str_int item_id +:+ " deleted"))]).

(** [trigger_error()]:
    [raise HTTPException(status_code=404, detail="This is a custom error")]. *)
Definition trigger_error : M pyval :=
  raise (HTTPException 404 "This is a custom error").

(** The dict literal bound to [item] in [get_item]. *)
Definition sample_item : list (string * pyval) :=
  [("name", VStr "Sample Item");
   ("description", VStr "A sample item description");
   ("price", VFloat 19.99%float);
   ("tax", VFloat 1.5%float)].

(** [get_item(item_id)]: builds the dict above and returns it; [item_id]
    is not read. *)
Definition get_item (item_id : Z) : M pyval :=
  let item := VDict sample_item in
  ret item.

(** [ItemService.__init__]: [self.items = {"1": "Item 1", "2": "Item 2"}]. *)
Definition ItemService__init__ : ItemService :=
  {| items := {[ "1" := "Item 1"; "2" := "Item 2" ]} |}.

(** [ItemService.get_item(self, item_id)]:
    [return self.items.get(item_id, "Item not found")], on the state of
    [self]. *)
Definition ItemService_get_item (self : ItemService) (item_id : string) : string :=
  dict_get_default (items self) item_id "Item not found".

(** The call [service.get_item(item_id)] through a reference. *)
Definition call_get_item (service : ref) (item_id : string) : M string :=
  self <- deref service ;;
  ret (ItemService_get_item self item_id).

(** [get_item_service()]: [return ItemService()], a new object on every
    call. *)
Definition get_item_service : M ref :=
  alloc ItemService__init__.

(** [read_item_service(item_id, service)]. *)
Definition read_item_service (item_id : string) (service : ref) : M pyval :=
  item <- call_get_item service item_id ;;
  if String.eqb item "Item not found"
  then raise (HTTPException 404 "Item not found")
  else ret (VDict [("item_id", VStr item_id); ("item", VStr item)]).

(** ** The framework around the handlers

    What FastAPI and pydantic do around a handler is not in the source;
    the part the routes rely on is modelled here.  How pydantic coerces a
    JSON value to [str] or to [float] is left open: it is any pair of
    functions that accept a value which already has the target type and
    leave it as it is. *)

Class Coercion := {
  coerce_str : pyval -> option string;
  coerce_float : pyval -> option float;
  coerce_str_VStr : forall s, coerce_str (VStr s) = Some s;
  coerce_float_VFloat : forall x, coerce_float (VFloat x) = Some x
}.

(** The coercion that accepts nothing but the target type. *)
Definition strict_str (v : pyval) : option string :=
  match v with
  | VStr s => Some s
  | _ => None
  end.

Definition strict_float (v : pyval) : option float :=
  match v with
  | VFloat x => Some x
  | _ => None
  end.

Definition strict : Coercion :=
  {| coerce_str := strict_str;
     coerce_float := strict_float;
     coerce_str_VStr := fun s => eq_refl;
     coerce_float_VFloat := fun x => eq_refl |}.

(** [d[k]] on a dict written as an association list; [None] when the key
    is absent.  A dict has no two entries with one key. *)
Fixpoint dict_get (d : list (string * pyval)) (k : string) : option pyval :=
  match d with
  | [] => None
  | (k', v) :: d' => if String.eqb k k' then Some v else dict_get d' k
  end.

(** A field declared [k: T]: it must be present and coerce to [T]. *)
Definition required {A} (conv : pyval -> option A)
    (d : list (string * pyval)) (k : string) : option A :=
  match dict_get d k with
  | Some v => conv v
  | None => None
  end.

(** A field declared [k: Optional[T] = None]: absent or null gives the
    default [None]; otherwise the value must coerce to [T]. *)
Definition optional {A} (conv : pyval -> option A)
    (d : list (string * pyval)) (k : string) : option (option A) :=
  match dict_get d k with
  | None => Some None
  | Some VNone => Some None
  | Some v =>
      match conv v with
      | Some a => Some (Some a)
      | None => None
      end
  end.

(** An optional field back as a Python value. *)
Definition of_opt {A} (inj : A -> pyval) (o : option A) : pyval :=
  match o with
  | Some a => inj a
  | None => VNone
  end.

(** The fields of a model as a dict, in declaration order. *)
Definition Item_dump (m : Item) : list (string * pyval) :=
  [("name", VStr (name m));
   ("description", of_opt VStr (description m));
   ("price", VFloat (price m));
   ("tax", of_opt VFloat (tax m))].

Definition ItemResponse_dump (m : ItemResponse) : list (string * pyval) :=
  [("name", VStr (resp_name m));
   ("description", of_opt VStr (resp_description m));
   ("price", VFloat (resp_price m));
   ("tax", of_opt VFloat (resp_tax m))].

(** What is sent for a returned value: a model inside it is replaced by
    the dict of its fields. *)
Fixpoint jsonable_encoder (v : pyval) : pyval :=
  match v with
  | VDict kvs =>
      VDict ((fix encode_entries (l : list (string * pyval)) :=
                match l with
                | [] => []
                | (k, x) :: l' => (k, jsonable_encoder x) :: encode_entries l'
                end) kvs)
  | VItem m => VDict (Item_dump m)
  | _ => v
  end.

(** A float that JSON can hold: neither an infinity nor a NaN. *)
Definition json_finite (x : float) : bool :=
  PrimFloat.ltb (PrimFloat.abs x) PrimFloat.infinity.

(** Whether [json.dumps(v, allow_nan=False)] writes [v]: it refuses a
    float that is not finite, wherever it occurs, and an object that is
    not one of the JSON types. *)
Fixpoint renderable (v : pyval) : bool :=
  match v with
  | VFloat x => json_finite x
  | VDict kvs =>
      (fix all_entries (l : list (string * pyval)) :=
         match l with
         | [] => true
         | (_, x) :: l' => renderable x && all_entries l'
         end) kvs
  | VItem _ => false
  | _ => true
  end.

(** The last step of every route: the content is written as JSON. *)
Definition render (v : pyval) : M pyval :=
  if renderable v then ret v else raise RenderError.

(** Whether the two floats of an item are finite. *)
Definition Item_finite (m : Item) : bool :=
  json_finite (price m)
  && match tax m with
     | Some x => json_finite x
     | None => true
     end.

(** A route without a response model encodes what the handler returned
    and renders the encoding. *)
Definition send (v : pyval) : M pyval := render (jsonable_encoder v).

(** A request whose path has been matched and whose path and query
    parameters have been converted to their declared types. *)
Inductive request :=
| GET_hello (q : option string)
| GET_items (item_id : Z)
| POST_items (body : pyval)
| PUT_items (item_id : Z) (body : pyval)
| DELETE_items (item_id : Z)
| GET_error
| GET_item (item_id : Z)
| GET_service_item (item_id : string).

Section Framework.
Context {C : Coercion}.

(** Validation of a request body against [Item]. *)
Definition Item_validate (body : pyval) : option Item :=
  match body with
  | VDict d =>
      match required coerce_str d "name", optional coerce_str d "description",
            required coerce_float d "price", optional coerce_float d "tax" with
      | Some n, Some de, Some p, Some t => Some (mkItem n de p t)
      | _, _, _, _ => None
      end
  | _ => None
  end.

(** Validation of a returned value against [ItemResponse]. *)
Definition ItemResponse_validate (v : pyval) : option ItemResponse :=
  match v with
  | VDict d =>
      match required coerce_str d "name", optional coerce_str d "description",
            required coerce_float d "price", optional coerce_float d "tax" with
      | Some n, Some de, Some p, Some t => Some (mkItemResponse n de p t)
      | _, _, _, _ => None
      end
  | _ => None
  end.

(** A parameter declared [item: Item]: the body is validated before the
    handler runs. *)
Definition Body (body : pyval) : M Item :=
  match Item_validate body with
  | Some item => ret item
  | None => raise RequestValidationError
  end.

(** [response_model=ItemResponse]: what the handler returned is
    validated against the model and the model's fields are rendered. *)
Definition response_model_ItemResponse (v : pyval) : M pyval :=
  match ItemResponse_validate v with
  | Some r => render (VDict (ItemResponse_dump r))
  | None => raise ResponseValidationError
  end.

(** The routes registered on [app]: each resolves the dependencies of
    its handler ([Depends] calls the provider and passes on what it
    returned), calls the handler and sends the result. *)
Definition app (r : request) : M pyval :=
  match r with
  | GET_hello q =>
      q' <- get_query_param q ;; v <- hello q' ;; send v
  | GET_items item_id =>
      v <- read_item item_id ;; send v
  | POST_items body =>
      item <- Body body ;; v <- create_item item ;; send v
  | PUT_items item_id body =>
      item <- Body body ;; v <- update_item item_id item ;; send v
  | DELETE_items item_id =>
      v <- delete_item item_id ;; send v
  | GET_error =>
      v <- trigger_error ;; send v
  | GET_item item_id =>
      v <- get_item item_id ;; response_model_ItemResponse v
  | GET_service_item item_id =>
      service <- get_item_service ;;
      v <- read_item_service item_id service ;; send v
  end.

(** Requests served one after the other on one store. *)
Fixpoint serve (rs : list request) (h : heap) : list (outcome pyval) * heap :=
  match rs with
  | [] => ([], h)
  | r :: rs' =>
      let (o, h') := app r h in
      let (os, h'') := serve rs' h' in
      (o :: os, h'')
  end.
End Framework.

(** The routes whose handler declares [Depends(get_item_service)]: in
    the source, [read_item_service] alone. *)
Definition constructs_service (r : request) : bool :=
  match r with
  | GET_service_item _ => true
  | _ => false
  end.

(** How many requests of a sequence have the provider construct an
    [ItemService]. *)
Definition services_constructed (rs : list request) : nat :=
  length (List.filter constructs_service rs).

Example str_int_42 : str_int 42 = "42".
Proof. reflexivity. Qed.

Example str_int_neg : str_int (-7) = "-7".
Proof. reflexivity. Qed.

Example str_int_0 : str_int 0 = "0".
Proof. reflexivity. Qed.

Example service_hit :
  fst (app (C := strict) (GET_service_item "1") []) =
  Return (VDict [("item_id", VStr "1"); ("item", VStr "Item 1")]).
Proof. vm_compute. reflexivity. Qed.

Example service_miss :
  fst (app (C := strict) (GET_service_item "99") []) =
  Raise (HTTPException 404 "Item not found").
Proof. vm_compute. reflexivity. Qed.

Example post_a :
  fst (app (C := strict) (POST_items (VDict [("name", VStr "a"); ("price", VFloat 1.0%float)])) []) =
  Return (VDict [("item", VDict [("name", VStr "a"); ("description", VNone);
                                 ("price", VFloat 1.0%float); ("tax", VNone)])]).
Proof. vm_compute. reflexivity. Qed.

Example delete_neg :
  fst (app (C := strict) (DELETE_items (-7)) []) =
  Return (VDict [("message", VStr "Item with ID -7 deleted")]).
Proof. vm_compute. reflexivity. Qed.

Example hello_absent :
  fst (app (C := strict) (GET_hello None) []) =
  Return (VDict [("Hello", VStr "How are you? Query Parameter: None")]).
Proof. vm_compute. reflexivity. Qed.

Example post_without_price :
  fst (app (C := strict) (POST_items (VDict [("name", VStr "a")])) []) =
  Raise RequestValidationError.
Proof. vm_compute. reflexivity. Qed.

Example post_infinite_price :
  fst (app (C := strict)
         (POST_items (VDict [("name", VStr "a"); ("price", VFloat infinity)])) []) =
  Raise RenderError.
Proof. vm_compute. reflexivity. Qed.

Example put_nan_tax :
  fst (app (C := strict)
         (PUT_items 3 (VDict [("name", VStr "a"); ("price", VFloat 1.0%float);
                              ("tax", VFloat nan)])) []) =
  Raise RenderError.
Proof. vm_compute. reflexivity. Qed.

Example put_finite :
  fst (app (C := strict)
         (PUT_items 3 (VDict [("name", VStr "a"); ("price", VFloat 1.0%float)])) []) =
  Return (VDict [("item_id", VInt 3);
                 ("item", VDict [("name", VStr "a"); ("description", VNone);
                                 ("price", VFloat 1.0%float); ("tax", VNone)])]).
Proof. vm_compute. reflexivity. Qed.

Example json_finite_cases :
  json_finite 19.99%float = true /\ json_finite (-1.5)%float = true
  /\ json_finite infinity = false /\ json_finite neg_infinity = false
  /\ json_finite nan = false.
Proof. vm_compute. by repeat split. Qed.

Example two_requests :
  fst (serve (C := strict) [GET_service_item "2"; GET_service_item "2"] []) =
  [Return (VDict [("item_id", VStr "2"); ("item", VStr "Item 2")]);
   Return (VDict [("item_id", VStr "2"); ("item", VStr "Item 2")])].
Proof. vm_compute. reflexivity. Qed.

Example get_item_42 :
  fst (app (C := strict) (GET_item 42) []) = Return (VDict sample_item).
Proof. vm_compute. reflexivity. Qed.

(** ** Auxiliary facts *)

Lemma str_int_round_trip (z : Z) : int_of_str (str_int z) = Some z.
Proof.
  unfold int_of_str, str_int.
  rewrite NilZero.isi.
  - simpl. f_equal. apply DecimalZ.of_to.
  - destruct z; simpl; try discriminate.
    intros [= E]. by apply DecimalPos.Unsigned.to_uint_nonnil in E.
  - destruct z; simpl; try discriminate.
    intros [= E]. by apply DecimalPos.Unsigned.to_uint_nonnil in E.
Qed.

(** The dict built by [ItemService.__init__], key by key. *)
Lemma items_init_lookup (k : string) :
  items ItemService__init__ !! k =
  if decide (k = "1") then Some "Item 1"
  else if decide (k = "2") then Some "Item 2"
  else None.
Proof.
  change (items ItemService__init__)
    with (<["1" := "Item 1"]> ({["2" := "Item 2"]} : gmap string string)).
  destruct (decide (k = "1")) as [->|H1]; [by rewrite lookup_insert_eq|].
  rewrite lookup_insert_ne by done.
  destruct (decide (k = "2")) as [->|H2]; [by rewrite lookup_singleton_eq|].
  by rewrite lookup_singleton_ne.
Qed.

(** The method on the object [ItemService.__init__] builds. *)
Lemma get_item_init (k : string) :
  ItemService_get_item ItemService__init__ k =
  if decide (k = "1") then "Item 1"
  else if decide (k = "2") then "Item 2"
  else "Item not found".
Proof.
  unfold ItemService_get_item, dict_get_default.
  rewrite items_init_lookup. by repeat case_decide.
Qed.

(** Reading the reference [alloc] has just returned gives the object
    back. *)
Lemma deref_alloc (o : ItemService) (h : heap) :
  deref (length h) (h ++ [o]) = (Return o, h ++ [o]).
Proof. unfold deref. by rewrite list_lookup_middle. Qed.

(** The provider followed by the method call. *)
Lemma get_item_service_call (k : string) (h : heap) :
  (service <- get_item_service ;; call_get_item service k) h =
  (Return (ItemService_get_item ItemService__init__ k), h ++ [ItemService__init__]).
Proof.
  unfold bind, get_item_service, alloc, call_get_item, bind.
  by rewrite deref_alloc.
Qed.

(** The route of [read_item_service], unfolded once and for all. *)
Lemma app_service_item `{Coercion} (k : string) (h : heap) :
  app (GET_service_item k) h =
  (if decide (k = "1") then
     Return (VDict [("item_id", VStr "1"); ("item", VStr "Item 1")])
   else if decide (k = "2") then
     Return (VDict [("item_id", VStr "2"); ("item", VStr "Item 2")])
   else Raise (HTTPException 404 "Item not found"),
   h ++ [ItemService__init__]).
Proof.
  unfold app, bind, get_item_service, alloc, read_item_service, call_get_item, bind.
  rewrite deref_alloc. unfold ret. rewrite get_item_init.
  repeat case_decide; by subst.
Qed.


(** The dict of an item renders exactly when its floats are finite. *)
Lemma renderable_Item_dump (m : Item) :
  renderable (VDict (Item_dump m)) = Item_finite m.
Proof.
  unfold Item_finite. destruct m as [n de p [x|]]; destruct de; simpl;
    by rewrite ?andb_true_r.
Qed.

(** The route of [create_item], unfolded once and for all. *)
Lemma app_create `{Coercion} (body : pyval) (h : heap) :
  app (POST_items body) h =
  (match Item_validate body with
   | Some item =>
       if Item_finite item
       then Return (VDict [("item", VDict (Item_dump item))])
       else Raise RenderError
   | None => Raise RequestValidationError
   end, h).
Proof.
  unfold app, bind, Body. destruct (Item_validate body) as [item|]; [|done].
  unfold create_item, ret, send, render.
  change (renderable (jsonable_encoder (VDict [("item", VItem item)])))
    with (renderable (VDict (Item_dump item)) && true).
  rewrite andb_true_r, renderable_Item_dump.
  by destruct (Item_finite item).
Qed.

(** The route of [update_item], unfolded once and for all. *)
Lemma app_update `{Coercion} (i : Z) (body : pyval) (h : heap) :
  app (PUT_items i body) h =
  (match Item_validate body with
   | Some item =>
       if Item_finite item
       then Return (VDict [("item_id", VInt i); ("item", VDict (Item_dump item))])
       else Raise RenderError
   | None => Raise RequestValidationError
   end, h).
Proof.
  unfold app, bind, Body. destruct (Item_validate body) as [item|]; [|done].
  unfold update_item, ret, send, render.
  change (renderable (jsonable_encoder (VDict [("item_id", VInt i); ("item", VItem item)])))
    with (renderable (VDict (Item_dump item)) && true).
  rewrite andb_true_r, renderable_Item_dump.
  by destruct (Item_finite item).
Qed.

(** The route of [get_item], unfolded once and for all. *)
Lemma app_get_item `{Coercion} (i : Z) (h : heap) :
  app (GET_item i) h = (Return (VDict sample_item), h).
Proof.
  unfold app, bind, get_item, ret, response_model_ItemResponse,
    ItemResponse_validate, required, optional; simpl.
  by rewrite !coerce_str_VStr, !coerce_float_VFloat.
Qed.

(** A request leaves the objects already in the store alone, and its
    outcome and the objects it allocates do not depend on them. *)
Lemma app_frame `{Coercion} (r : request) (h : heap) :
  app r h = (fst (app r []), h ++ snd (app r [])).
Proof.
  destruct r as [q|i|body|i body| i| |i|k].
  - by rewrite app_nil_r.
  - by rewrite app_nil_r.
  - rewrite !app_create; simpl. by rewrite app_nil_r.
  - rewrite !app_update; simpl. by rewrite app_nil_r.
  - by rewrite app_nil_r.
  - by rewrite app_nil_r.
  - rewrite !app_get_item; simpl. by rewrite app_nil_r.
  - by rewrite !app_service_item.
Qed.

Lemma serve_frame `{Coercion} (rs : list request) (h : heap) :
  serve rs h = (map (fun r => fst (app r [])) rs, h ++ snd (serve rs [])).
Proof.
  revert h. induction rs as [|r rs IH]; intros h; simpl.
  - by rewrite app_nil_r.
  - rewrite (app_frame r h).
    rewrite (IH (h ++ snd (app r []))).
    destruct (app r []) as [o h1] eqn:E; simpl.
    rewrite (IH h1); simpl. by rewrite app_assoc.
Qed.

(** The outcome the model adds for a dead reference never arises. *)
Lemma app_never_dangles `{Coercion} (r : request) (h : heap) :
  fst (app r h) <> Raise DanglingReference.
Proof.
  rewrite app_frame; simpl.
  destruct r as [q|i|body|i body| i| |i|k]; try done.
  - rewrite app_create; simpl.
    destruct (Item_validate body) as [item|]; [|done].
    by destruct (Item_finite item).
  - rewrite app_update; simpl.
    destruct (Item_validate body) as [item|]; [|done].
    by destruct (Item_finite item).
  - by rewrite app_get_item.
  - rewrite app_service_item; simpl. by repeat case_decide.
Qed.

(** ** The claims *)

(** C1: the service-item lookup.  For every string item_id the route of
    read_item_service returns the dict with item_id and the string the
    mapping of ItemService assigns to it when there is one, and raises
    HTTPException 404 with detail "Item not found" when there is none;
    the mapping assigns "Item 1" to "1", "Item 2" to "2" and nothing to
    any other string. *)
Theorem read_item_service_spec `{Coercion} (item_id : string) (h : heap) :
  fst (app (GET_service_item item_id) h) =
    match items ItemService__init__ !! item_id with
    | Some v => Return (VDict [("item_id", VStr item_id); ("item", VStr v)])
    | None => Raise (HTTPException 404 "Item not found")
    end
  /\ items ItemService__init__ !! item_id =
       (if decide (item_id = "1") then Some "Item 1"
        else if decide (item_id = "2") then Some "Item 2"
        else None).
Proof.
  split; [|apply items_init_lookup].
  rewrite app_service_item, items_init_lookup. simpl.
  repeat case_decide; by subst.
Qed.


(** C3: for every integer i, read_item returns exactly the dict with the
    single entry item_id -> i, the route sends that dict, and the store is
    left as it was. *)
Theorem read_item_returns_id `{Coercion} (i : Z) (h : heap) :
  read_item i h = (Return (VDict [("item_id", VInt i)]), h)
  /\ app (GET_items i) h = (Return (VDict [("item_id", VInt i)]), h).
Proof. by split. Qed.

(** C4: trigger_error never returns a value: on every store it raises
    HTTPException with status 404 and detail "This is a custom error", and
    so does its route. *)
Theorem trigger_error_always_404 `{Coercion} (h : heap) :
  trigger_error h = (Raise (HTTPException 404 "This is a custom error"), h)
  /\ app GET_error h = (Raise (HTTPException 404 "This is a custom error"), h)
  /\ forall v, fst (app GET_error h) <> Return v.
Proof. by repeat split. Qed.

(** C5: get_item is constant in item_id.  For every integer it returns
    the fixed payload, the response model ItemResponse accepts that payload
    and sends the same four fields, and two calls with any two item_id
    values give equal results. *)
Theorem get_item_constant `{Coercion} (i j : Z) (h h' : heap) :
  let payload :=
    VDict [("name", VStr "Sample Item");
           ("description", VStr "A sample item description");
           ("price", VFloat 19.99%float);
           ("tax", VFloat 1.5%float)] in
  get_item i h = (Return payload, h)
  /\ app (GET_item i) h = (Return payload, h)
  /\ fst (get_item i h) = fst (get_item j h')
  /\ fst (app (GET_item i) h) = fst (app (GET_item j) h').
Proof.
  assert (Hr : forall k s, app (GET_item k) s = (Return (VDict sample_item), s)).
  { intros k s.
    unfold app, bind, get_item, ret, response_model_ItemResponse,
      ItemResponse_validate, required, optional; simpl.
    by rewrite !coerce_str_VStr, !coerce_float_VFloat. }
  intros payload. split; [reflexivity|]. split; [apply Hr|].
  split; [reflexivity|]. by rewrite !Hr.
Qed.

(** C6: get_query_param returns its argument unchanged, None included,
    and leaves the store as it was; what the route of hello passes to its
    handler is therefore q itself. *)
Theorem get_query_param_identity (q : option string) (h : heap) :
  get_query_param q h = (Return q, h)
  /\ (q' <- get_query_param q ;; hello q') h = hello q h.
Proof. by split. Qed.

(** C7: for every integer item_id, delete_item returns exactly the dict
    whose entry "message" is "Item with ID ", the decimal rendering of
    item_id and " deleted"; reading the rendering back as an integer gives
    item_id; the route sends that dict; and the store is left as it was. *)
Theorem delete_item_message `{Coercion} (item_id : Z) (h : heap) :
  delete_item item_id h =
    (Return (VDict [("message",
                     VStr ("Item with ID " +:+ str_int item_id +:+ " deleted"))]), h)
  /\ int_of_str (str_int item_id) = Some item_id
  /\ app (DELETE_items item_id) h = delete_item item_id h
  /\ snd (app (DELETE_items item_id) h) = h.
Proof.
  split; [reflexivity|]. split; [apply str_int_round_trip|]. by split.
Qed.

(** C8: every handler is a function of its validated input alone.  Each
    of the eight handlers, called on any two stores with the same
    arguments (read_item_service with the service its provider supplies),
    has the same outcome, errors included; so has every route; a request
    never changes an object that is already in the store; and in a
    sequence of requests served one after the other, each gets the outcome
    it would get if it were served alone on the empty store. *)
Theorem app_deterministic `{Coercion} :
  (forall q h1 h2, fst (hello q h1) = fst (hello q h2))
  /\ (forall i h1 h2, fst (read_item i h1) = fst (read_item i h2))
  /\ (forall item h1 h2, fst (create_item item h1) = fst (create_item item h2))
  /\ (forall i item h1 h2, fst (update_item i item h1) = fst (update_item i item h2))
  /\ (forall i h1 h2, fst (delete_item i h1) = fst (delete_item i h2))
  /\ (forall h1 h2, fst (trigger_error h1) = fst (trigger_error h2))
  /\ (forall i h1 h2, fst (get_item i h1) = fst (get_item i h2))
  /\ (forall k h1 h2,
        fst ((service <- get_item_service ;; read_item_service k service) h1) =
        fst ((service <- get_item_service ;; read_item_service k service) h2))
  /\ (forall r h1 h2, fst (app r h1) = fst (app r h2))
  /\ (forall r h, exists new, snd (app r h) = h ++ new)
  /\ (forall r prior h, fst (app r (snd (serve prior h))) = fst (app r []))
  /\ (forall rs h, fst (serve rs h) = map (fun r => fst (app r [])) rs).
Proof.
  repeat match goal with |- _ /\ _ => split end; try done.
  - intros k h1 h2.
    unfold bind, get_item_service, alloc, read_item_service, call_get_item, bind.
    rewrite !deref_alloc. unfold ret.
    by destruct (String.eqb _ _).
  - intros r h1 h2. by rewrite (app_frame r h1), (app_frame r h2).
  - intros r h. exists (snd (app r [])). by rewrite (app_frame r h).
  - intros r prior h. by rewrite app_frame.
  - intros rs h. by rewrite serve_frame.
Qed.

(** C9: ItemService.get_item is total.  On any object and any string key
    it returns the value the object's dict holds for the key, or the
    sentinel "Item not found" when the key is absent; on the object the
    provider constructs, called through the reference the provider
    returned, it returns without raising, and the value is "Item 1" for
    "1", "Item 2" for "2" and the sentinel for any other key. *)
Theorem ItemService_get_item_total (item_id : string) (h : heap) :
  (forall self : ItemService,
     items self !! item_id = Some (ItemService_get_item self item_id)
     \/ (items self !! item_id = None
         /\ ItemService_get_item self item_id = "Item not found"))
  /\ (service <- get_item_service ;; call_get_item service item_id) h =
       (Return (ItemService_get_item ItemService__init__ item_id),
        h ++ [ItemService__init__])
  /\ ItemService_get_item ItemService__init__ item_id =
       (if decide (item_id = "1") then "Item 1"
        else if decide (item_id = "2") then "Item 2"
        else "Item not found").
Proof.
  split; [|split].
  - intros self. unfold ItemService_get_item, dict_get_default.
    destruct (items self !! item_id); [by left | by right].
  - apply get_item_service_call.
  - apply get_item_init.
Qed.

(** C10: no value of ItemService.items is the sentinel, so the test of
    read_item_service on the looked-up string holds exactly when item_id
    is not a key, that is exactly when item_id is neither "1" nor "2", and
    these are exactly the requests the 404 is raised for. *)
Theorem sentinel_not_stored `{Coercion} (item_id : string) (h : heap) :
  (forall k, items ItemService__init__ !! k <> Some "Item not found")
  /\ (String.eqb (ItemService_get_item ItemService__init__ item_id) "Item not found" = true
      <-> items ItemService__init__ !! item_id = None)
  /\ (items ItemService__init__ !! item_id = None
      <-> item_id <> "1" /\ item_id <> "2")
  /\ (fst (app (GET_service_item item_id) h) = Raise (HTTPException 404 "Item not found")
      <-> item_id <> "1" /\ item_id <> "2").
Proof.
  split; [|split; [|split]].
  - intros k. rewrite items_init_lookup. by repeat case_decide.
  - rewrite get_item_init, items_init_lookup.
    repeat case_decide; simpl; split; done.
  - rewrite items_init_lookup.
    repeat case_decide; split; try done; intros [? ?]; done.
  - rewrite app_service_item; simpl.
    repeat case_decide; split; try done; intros [? ?]; done.
Qed.



(** ** Further properties of the handlers *)

Lemma string_length_app (s t : string) :
  String.length (s +:+ t) = (String.length s + String.length t)%nat.
Proof. induction s as [|a s IH]; simpl; [done | by rewrite IH]. Qed.

(** Appending the same suffix to two strings keeps them apart. *)
Lemma string_app_inj_r (t s1 s2 : string) : s1 +:+ t = s2 +:+ t -> s1 = s2.
Proof.
  revert s2. induction s1 as [|a s1 IH]; intros [|b s2] E; simpl in E.
  - done.
  - apply (f_equal String.length) in E.
    rewrite !string_length_app in E. simpl in E. lia.
  - apply (f_equal String.length) in E.
    rewrite !string_length_app in E. simpl in E. lia.
  - injection E as -> E. f_equal. by apply IH.
Qed.

Lemma str_int_inj (a b : Z) : str_int a = str_int b -> a = b.
Proof.
  intros E. apply (f_equal int_of_str) in E.
  rewrite !str_int_round_trip in E. by injection E.
Qed.

(** The dict form of an item validates back to the item. *)
Lemma Item_validate_dump `{Coercion} (item : Item) :
  Item_validate (VDict (Item_dump item)) = Some item.
Proof.
  destruct item as [n de p t].
  unfold Item_validate, Item_dump, required, optional; simpl.
  rewrite coerce_str_VStr, coerce_float_VFloat.
  destruct de as [s|], t as [x|]; simpl;
    rewrite ?coerce_str_VStr, ?coerce_float_VFloat; done.
Qed.

(** What every route does to the store. *)
Lemma app_store `{Coercion} (r : request) (h : heap) :
  snd (app r h) =
  h ++ (if constructs_service r then [ItemService__init__] else []).
Proof.
  rewrite app_frame. unfold snd at 1. f_equal.
  destruct r as [q|i|body|i body| i| |i|k]; try reflexivity.
  - by rewrite app_create.
  - by rewrite app_update.
  - by rewrite app_get_item.
  - by rewrite app_service_item.
Qed.

(** X1: hello renders an absent q as the word None, so two queries get
    the same greeting exactly when they are equal or one is absent and the
    other is the string "None". *)
Theorem hello_same_greeting `{Coercion} (q1 q2 : option string) (h1 h2 : heap) :
  fst (app (GET_hello q1) h1) = fst (app (GET_hello q2) h2)
  <-> q1 = q2
      \/ (q1 = None /\ q2 = Some "None")
      \/ (q1 = Some "None" /\ q2 = None).
Proof.
  change (Return (VDict [("Hello", VStr ("How are you? Query Parameter: " +:+ str_opt q1))])
          = Return (VDict [("Hello", VStr ("How are you? Query Parameter: " +:+ str_opt q2))])
          <-> q1 = q2 \/ (q1 = None /\ q2 = Some "None")
              \/ (q1 = Some "None" /\ q2 = None)).
  split.
  - intros [= E]. apply (inj (String.app _)) in E.
    destruct q1 as [s1|], q2 as [s2|]; simpl in E; subst; auto.
  - intros [->|[[-> ->]|[-> ->]]]; reflexivity.
Qed.

(** X2: read_item_service on any live service object.  The 404 is raised
    exactly when the key is absent from the object's dict or is stored
    with the value "Item not found"; any other stored value is returned
    with the key; the store is not changed. *)
Theorem read_item_service_in_band (k : string) (service : ref)
    (self : ItemService) (h : heap) :
  h !! service = Some self ->
  (fst (read_item_service k service h) = Raise (HTTPException 404 "Item not found")
   <-> items self !! k = None \/ items self !! k = Some "Item not found")
  /\ (forall v, items self !! k = Some v -> v <> "Item not found" ->
       fst (read_item_service k service h) =
       Return (VDict [("item_id", VStr k); ("item", VStr v)]))
  /\ snd (read_item_service k service h) = h.
Proof.
  intros Hs.
  unfold read_item_service, call_get_item, bind, deref. rewrite Hs.
  unfold ret, ItemService_get_item, dict_get_default.
  destruct (items self !! k) as [v|] eqn:Ek; simpl.
  - destruct (String.eqb_spec v "Item not found") as [->|Hne]; simpl.
    + repeat split; auto. intros v [= <-] Hv. done.
    + repeat split; try done.
      * intros [[=]|[= ->]]. done.
      * intros v' [= <-] _. done.
  - repeat split; auto. intros v [=].
Qed.

(** X3: get_item_service returns a reference that was not live before
    the call and holds a new ItemService after it; every reference that
    was live before still reads the same object; and two calls in a row
    return two different references. *)
Theorem get_item_service_fresh (h : heap) :
  exists r,
    get_item_service h = (Return r, h ++ [ItemService__init__])
    /\ h !! r = None
    /\ (h ++ [ItemService__init__]) !! r = Some ItemService__init__
    /\ (forall r' o, h !! r' = Some o ->
         r' <> r /\ (h ++ [ItemService__init__]) !! r' = Some o)
    /\ exists r2,
         (r1 <- get_item_service ;; r2 <- get_item_service ;; ret (r1, r2)) h =
           (Return (r, r2), h ++ [ItemService__init__; ItemService__init__])
         /\ r <> r2.
Proof.
  exists (length h). split; [reflexivity|].
  split; [by apply lookup_ge_None_2|].
  split; [by apply list_lookup_middle|].
  split.
  - intros r' o Hr'. pose proof (lookup_lt_Some _ _ _ Hr') as Hlt.
    split; [lia|]. by apply lookup_app_l_Some.
  - exists (S (length h)). split; [|lia].
    unfold bind, get_item_service, alloc, ret.
    rewrite length_app; simpl. rewrite <- app_assoc; simpl.
    do 3 f_equal. lia.
Qed.

(** X4: an ItemService is constructed once for every request to the
    service-item route, hit or miss, and for no other request: a request
    appends that one object or nothing, and after a sequence of requests
    the store is the old store followed by one new ItemService per
    service-item request. *)
Theorem one_service_per_request `{Coercion} (rs : list request) (h : heap) :
  (forall r, snd (app r h) =
     h ++ (if constructs_service r then [ItemService__init__] else []))
  /\ snd (serve rs h) =
      h ++ replicate (services_constructed rs) ItemService__init__.
Proof.
  split; [intros r; apply app_store|].
  revert h. induction rs as [|r rs IH]; intros h.
  - simpl. by rewrite app_nil_r.
  - simpl. pose proof (app_store r h) as Hr.
    destruct (app r h) as [o h1]; simpl in Hr; subst h1.
    pose proof (IH (h ++ (if constructs_service r then [ItemService__init__] else []))) as Hs.
    destruct (serve rs _) as [os h2]; simpl in *; subst h2.
    unfold services_constructed; simpl.
    destruct (constructs_service r); simpl.
    + by rewrite <- app_assoc.
    + by rewrite app_nil_r.
Qed.


(** X6: the update route accepts exactly the bodies the create route
    accepts, fails the way it fails, and on success answers with the entry
    item_id followed by the entries the create route answers with. *)
Theorem update_item_extends_create `{Coercion} (i : Z) (body : pyval) (h : heap) :
  match fst (app (POST_items body) h) with
  | Return (VDict kvs) =>
      app (PUT_items i body) h = (Return (VDict (("item_id", VInt i) :: kvs)), h)
  | Return _ => False
  | Raise e => app (PUT_items i body) h = (Raise e, h)
  end.
Proof.
  rewrite app_create, app_update; simpl.
  destruct (Item_validate body) as [item|]; [|done].
  by destruct (Item_finite item).
Qed.

(** X7: the dict of an item's fields validates back to that item, and
    so do the fields of an ItemResponse.  Posting the dict of an item
    answers with the same dict when the item's price and tax are finite
    and fails to render otherwise; so whenever the create route has
    answered, posting the item of its answer again gives the same
    answer. *)
Theorem item_round_trip `{Coercion} (item : Item) (r : ItemResponse) (h : heap) :
  Item_validate (VDict (Item_dump item)) = Some item
  /\ ItemResponse_validate (VDict (ItemResponse_dump r)) = Some r
  /\ app (POST_items (VDict (Item_dump item))) h =
       (if Item_finite item
        then Return (VDict [("item", VDict (Item_dump item))])
        else Raise RenderError, h)
  /\ (forall body v,
        fst (app (POST_items body) h) = Return (VDict [("item", v)]) ->
        app (POST_items v) h = (Return (VDict [("item", v)]), h)).
Proof.
  split; [apply Item_validate_dump|]. split; [|split].
  - destruct r as [n de p t].
    unfold ItemResponse_validate, ItemResponse_dump, required, optional; simpl.
    rewrite coerce_str_VStr, coerce_float_VFloat.
    destruct de as [s|], t as [x|]; simpl;
      rewrite ?coerce_str_VStr, ?coerce_float_VFloat; done.
  - by rewrite app_create, Item_validate_dump.
  - intros body v. rewrite (app_create body).
    destruct (Item_validate body) as [it|]; [|done].
    destruct (Item_finite it) eqn:Efin; [|done].
    unfold fst. intros [= <-].
    by rewrite app_create, Item_validate_dump, Efin.
Qed.


(** X9: the message of the delete route tells the item apart: two
    delete requests get the same answer exactly when they name the same
    item_id. *)
Theorem delete_item_injective `{Coercion} (i j : Z) (h1 h2 : heap) :
  fst (app (DELETE_items i) h1) = fst (app (DELETE_items j) h2) <-> i = j.
Proof.
  split; [|by intros ->].
  change (Return (VDict [("message", VStr ("Item with ID " +:+ str_int i +:+ " deleted"))])
          = Return (VDict [("message", VStr ("Item with ID " +:+ str_int j +:+ " deleted"))])
          -> i = j).
  intros [= E]. apply (inj (String.app _)) in E.
  apply string_app_inj_r in E. by apply str_int_inj.
Qed.

(** X10: for the two optional fields an explicit null is the same as
    leaving the field out: adding the entry description: null or tax: null
    to a body that has no such entry changes neither the validated item
    nor the answer of the create route. *)
Theorem null_is_absent `{Coercion} (d : list (string * pyval)) (k : string) (h : heap) :
  k = "description" \/ k = "tax" ->
  dict_get d k = None ->
  Item_validate (VDict ((k, VNone) :: d)) = Item_validate (VDict d)
  /\ app (POST_items (VDict ((k, VNone) :: d))) h = app (POST_items (VDict d)) h.
Proof.
  intros Hk Hd.
  assert (Hv : Item_validate (VDict ((k, VNone) :: d)) = Item_validate (VDict d)).
  { unfold Item_validate, required, optional.
    destruct Hk as [-> | ->]; simpl; by rewrite Hd. }
  split; [exact Hv|]. unfold app, bind, Body. by rewrite Hv.
Qed.

(** A service whose dict stores the sentinel under a key: the key is
    present and the handler still answers 404. *)
Lemma read_item_service_in_band_witness :
  let self := mkItemService {[ "x" := "Item not found" ]} in
  [self] !! 0%nat = Some self
  /\ fst (read_item_service "x" 0%nat [self]) =
       Raise (HTTPException 404 "Item not found").
Proof.
  intros self. split; [reflexivity|].
  apply (proj1 (read_item_service_in_band "x" 0%nat self [self] eq_refl)).
  right. apply lookup_singleton_eq.
Defined.


(** A body with a name and a price, with and without description: null. *)
Lemma null_is_absent_witness :
  let d := [("name", VStr "a"); ("price", VFloat 1.0%float)] in
  dict_get d "description" = None
  /\ Item_validate (C := strict) (VDict (("description", VNone) :: d)) =
     Item_validate (C := strict) (VDict d).
Proof.
  intros d.
  assert (Hd : dict_get d "description" = None) by reflexivity.
  split; [exact Hd|].
  exact (proj1 (null_is_absent (H := strict) d "description" []
                  (or_introl eq_refl) Hd)).
Defined.

(** A successful create, and its answer posted again. *)
Lemma item_round_trip_witness :
  let body := VDict [("name", VStr "a"); ("price", VFloat 1.0%float)] in
  let v := VDict [("name", VStr "a"); ("description", VNone);
                  ("price", VFloat 1.0%float); ("tax", VNone)] in
  fst (app (C := strict) (POST_items body) []) = Return (VDict [("item", v)])
  /\ app (C := strict) (POST_items v) [] = (Return (VDict [("item", v)]), []).
Proof.
  intros body v.
  assert (Hb : fst (app (C := strict) (POST_items body) []) =
               Return (VDict [("item", v)])) by (vm_compute; reflexivity).
  split; [exact Hb|].
  exact (proj2 (proj2 (proj2 (item_round_trip (H := strict)
           (mkItem "a" None 1.0%float None)
           (mkItemResponse "a" None 1.0%float None) []))) body v Hb).
Defined.
